(** * RepoStandardsAgent: the repository-standards agent and what it does

    A shallow embedding of [archive/agentsPart2/repo_standards_agent.py].
    The Python class is embedded in a state-and-exception monad over a
    world made of a file system, a commit history and a log of file-system
    accesses.  Method bodies are transcribed statement by statement. *)

From stdpp Require Import base option strings list gmap.

(** ** Values *)

(** Modelled from the spec: the [Finding] and [Report] records and the
    [Status] enumeration of the data model (section 3), which the source
    does not declare.  They are needed to say what a method would have to
    return. *)
Inductive Status : Type := PASS | WARN | FAIL.

Record Finding : Type := mkFinding {
  check_name : string;
  status : Status;
  message : string;
  auto_fixed : bool
}.

Record Report : Type := mkReport {
  findings : list Finding;
  overall : Status
}.

(** The order PASS < WARN < FAIL and the worst status of a list. *)
Definition severity (s : Status) : nat :=
  match s with PASS => 0 | WARN => 1 | FAIL => 2 end.

Definition worse (s t : Status) : Status :=
  if decide (severity s ≤ severity t)%nat then t else s.

Definition worst (fs : list Finding) : Status :=
  foldr (λ f acc, worse (status f) acc) PASS fs.

(** Python values that can reach or leave the agent. *)
Inductive value : Type :=
  | VNone
  | VBool (b : bool)
  | VInt (n : Z)
  | VStr (s : string)
  | VFinding (f : Finding)
  | VReport (r : Report).

(** An instance is its attribute dictionary. *)
Abbreviation object := (gmap string value).

(** ** The world a scan runs in *)

Record file : Type := mkFile {
  size : N;
  tracked : bool;
  readable : bool
}.

Record commit : Type := mkCommit {
  timestamp : Z;
  diff_size : N
}.

Inductive event : Type :=
  | EvRead (path : string)
  | EvWrite (path : string).

(** [files] maps a path to the entry stored there, [history] maps a
    repository root to its commits, [trace] logs every access to the file
    system, most recent first. *)
Record world : Type := mkWorld {
  files : gmap string file;
  history : gmap string (list commit);
  trace : list event
}.

(** Modelled from the spec: the error kinds of section 7; the source
    raises none of them. *)
Inductive exn : Type :=
  | NotARepository
  | PathNotFound
  | PermissionDenied
  | HistoryUnavailable.

(** ** The monad of Python code: state and exceptions *)

Inductive result (A : Type) : Type :=
  | Ok (a : A)
  | Raise (e : exn).
Arguments Ok {A} a.
Arguments Raise {A} e.

Definition M (A : Type) : Type := world → result A * world.

#[export] Instance M_ret : MRet M := λ A a w, (Ok a, w).

#[export] Instance M_bind : MBind M := λ A B k m w,
  match m w with
  | (Ok a, w') => k a w'
  | (Raise e, w') => (Raise e, w')
  end.

Definition raise {A : Type} (e : exn) : M A := λ w, (Raise e, w).

(** What reading and writing the file system mean in this world. *)
Definition path_exists (path : string) : M bool := λ w,
  (Ok (bool_decide (is_Some (files w !! path))),
   mkWorld (files w) (history w) (EvRead path :: trace w)).

Definition write_file (path : string) (f : file) : M unit := λ w,
  (Ok (), mkWorld (<[path := f]> (files w)) (history w) (EvWrite path :: trace w)).

Definition raised {A : Type} (r : result A) : bool :=
  match r with Ok _ => false | Raise _ => true end.

(** ** Python statements *)

(** [pass] does nothing. *)
Definition pass : M unit := mret ().

(** A function whose body ends without [return] returns [None]. *)
Definition def (body : M unit) : M value := body;; mret VNone.

(** [self.name = v]: the instance after the assignment. *)
Definition setattr (self : object) (name : string) (v : value) : M object :=
  mret (<[name := v]> self).

(** ** class RepoStandardsAgent *)

Module RepoStandardsAgent.

(** [__init__(self, repo_path)]: [self.repo_path = repo_path]. *)
Definition __init__ (self : object) (repo_path : value) : M object :=
  setattr self "repo_path" repo_path.

(** [RepoStandardsAgent(repo_path=...)]: a fresh instance, initialised. *)
Definition new (repo_path : value) : M object := __init__ ∅ repo_path.

Definition scan_gitignore (self : object) : M value := def pass.

Definition scan_ci_workflow (self : object) : M value := def pass.

Definition scan_branch_structure (self : object) : M value := def pass.

Definition scan_large_files (self : object) : M value := def pass.

Definition scan_commit_hygiene (self : object) : M value := def pass.

Definition generate_report (self : object) : M value := def pass.

(** The five checks, in the order of the class body. *)
Definition checks : list (object → M value) :=
  [scan_gitignore; scan_ci_workflow; scan_branch_structure;
   scan_large_files; scan_commit_hygiene].

(** Every public operation on an instance. *)
Definition operations : list (object → M value) :=
  checks ++ [generate_report].

(** The example usage at the end of the file: construct the agent, call
    the five checks, then [generate_report].  Python discards the six
    values; they are kept here, in call order. *)
Definition example_usage (repo_path : value) : M (list value) :=
  agent ← new repo_path;
  r1 ← scan_gitignore agent;
  r2 ← scan_ci_workflow agent;
  r3 ← scan_branch_structure agent;
  r4 ← scan_large_files agent;
  r5 ← scan_commit_hygiene agent;
  r6 ← generate_report agent;
  mret [r1; r2; r3; r4; r5; r6].

End RepoStandardsAgent.

Import RepoStandardsAgent.

(** ** Vocabulary of the specification *)

(** The root an instance was given, when it is a string. *)
Definition root_of (self : object) : option string :=
  match self !! "repo_path" with
  | Some (VStr root) => Some root
  | _ => None
  end.

(** The root path exists and is readable. *)
Definition exists_readable (w : world) (repo_path : value) : bool :=
  match repo_path with
  | VStr root =>
      match files w !! root with
      | Some f => readable f
      | None => false
      end
  | _ => false
  end.

Definition gitignore_at (root : string) : string := root +:+ "/.gitignore".

Definition has_gitignore (w : world) (root : string) : bool :=
  bool_decide (is_Some (files w !! gitignore_at root)).

Definition is_repository (w : world) (root : string) : bool :=
  bool_decide (is_Some (files w !! (root +:+ "/.git"))).

Definition commits_of (w : world) (root : string) : list commit :=
  default [] (history w !! root).

(** Some tracked file under [root] is larger than [threshold] bytes. *)
Definition tracked_above (threshold : N) (w : world) (root : string) : Prop :=
  ∃ path f, files w !! path = Some f ∧
            String.prefix (root +:+ "/") path = true ∧
            tracked f = true ∧ (threshold < size f)%N.

(** The paths written, as logged in a trace. *)
Definition writes (t : list event) : list string :=
  omap (λ e, match e with EvWrite path => Some path | EvRead _ => None end) t.

(** An outcome that is a Finding, or a Report, with a given property. *)
Definition returns_finding (P : Finding → Prop) (r : result value) : Prop :=
  ∃ f, r = Ok (VFinding f) ∧ P f.

Definition returns_report (P : Report → Prop) (r : result value) : Prop :=
  ∃ rep, r = Ok (VReport rep) ∧ P rep.

Definition descriptive (f : Finding) : Prop := message f ≠ "".

(** ** Sample worlds *)

Definition MB : N := 1048576.

Definition directory : file := mkFile 0 false true.

(** Nothing exists. *)
Definition bare_world : world := mkWorld ∅ ∅ [].

(** A repository just initialised: no [.gitignore], no commit. *)
Definition fresh_repo : world :=
  mkWorld (<["repo" := directory]> (<["repo/.git" := directory]> ∅))
          (<["repo" := []]> ∅)
          [].

(** A repository with a [.gitignore], one commit and a tracked file of
    15 MB. *)
Definition busy_repo : world :=
  mkWorld (<["repo" := directory]>
           (<["repo/.git" := directory]>
            (<["repo/.gitignore" := mkFile 120 true true]>
             (<["repo/assets/video.bin" := mkFile (15 * MB) true true]> ∅))))
          (<["repo" := [mkCommit 1700000000 4096]]> ∅)
          [].

(** The same repository, seen after some other program has read it. *)
Definition busy_repo_later : world :=
  mkWorld (files busy_repo) (history busy_repo) [EvRead "repo/.gitignore"].

(** The instance [RepoStandardsAgent(repo_path=root)]. *)
Definition agent_at (root : string) : object := {["repo_path" := VStr root]}.

(** * Properties *)

(** ** The monad can observe effects *)

Lemma write_file_is_observed path f w :
  files (snd (write_file path f w)) !! path = Some f ∧
  writes (trace (snd (write_file path f w))) = path :: writes (trace w).
Proof. split; [apply lookup_insert_eq | reflexivity]. Qed.

Lemma path_exists_is_logged path w :
  trace (snd (path_exists path w)) = EvRead path :: trace w.
Proof. reflexivity. Qed.

Lemma raise_is_raised {A : Type} (e : exn) (k : A → M value) w :
  raised (fst ((raise e ≫= k) w)) = true.
Proof. reflexivity. Qed.

(** ** What each method does *)

Lemma def_pass w : def pass w = (Ok VNone, w).
Proof. reflexivity. Qed.

Lemma operation_inert op self w :
  op ∈ operations → op self w = (Ok VNone, w).
Proof.
  unfold operations, checks. intros Hop.
  repeat (apply elem_of_cons in Hop as [-> | Hop]; [apply def_pass |]).
  by apply elem_of_nil in Hop.
Qed.

Lemma new_spec repo_path w :
  new repo_path w = (Ok {["repo_path" := repo_path]}, w).
Proof. unfold new, __init__, setattr. by rewrite insert_empty. Qed.

Lemma new_agent_at root w : new (VStr root) w = (Ok (agent_at root), w).
Proof. apply new_spec. Qed.

Lemma example_usage_spec repo_path w :
  example_usage repo_path w = (Ok (replicate 6 VNone), w).
Proof. reflexivity. Qed.

Lemma root_of_agent_at root : root_of (agent_at root) = Some root.
Proof. unfold root_of, agent_at. by rewrite lookup_singleton_eq. Qed.

Lemma none_is_no_finding P : ¬ returns_finding P (Ok VNone).
Proof. intros (f & Hf & _). discriminate Hf. Qed.

Lemma none_is_no_report P : ¬ returns_report P (Ok VNone).
Proof. intros (rep & Hrep & _). discriminate Hrep. Qed.

(** ** The specified properties *)

(** C10: for every [repo_path] value, existing path or not, the constructor
    stores it verbatim without validation, and every public operation
    returns [None] without raising and leaves the world as it was: no file
    is read or written. *)
Theorem agent_is_inert (repo_path : value) (self : object) (w : world) :
  (∃ agent, new repo_path w = (Ok agent, w) ∧
            agent !! "repo_path" = Some repo_path) ∧
  (∃ self', __init__ self repo_path w = (Ok self', w) ∧
            self' !! "repo_path" = Some repo_path) ∧
  Forall (λ op, op self w = (Ok VNone, w)) operations.
Proof.
  split; [| split].
  - eexists. split; [apply new_spec |]. apply lookup_singleton_eq.
  - eexists. split; [reflexivity |]. apply lookup_insert_eq.
  - apply Forall_forall. intros op Hop. by apply operation_inert.
Qed.

(** C1, on a repository with a large tracked file: [generate_report] returns
    [None], not a Report of five Findings whose overall status is their
    worst. *)
Theorem generate_report_yields_no_report :
  generate_report (agent_at "repo") busy_repo = (Ok VNone, busy_repo) ∧
  ¬ returns_report
      (λ rep, length (findings rep) = 5 ∧ overall rep = worst (findings rep))
      (fst (generate_report (agent_at "repo") busy_repo)).
Proof. split; [apply def_pass | apply none_is_no_report]. Qed.

(** C2, on a path where nothing exists, so that no check can run: every
    check returns [None] and so does [generate_report]; nothing raises,
    but no check returns a FAIL Finding with a message and
    [generate_report] returns no Report. *)
Theorem unrunnable_check_yields_no_finding :
  root_of (agent_at "missing") = Some "missing" ∧
  is_repository bare_world "missing" = false ∧
  commits_of bare_world "missing" = [] ∧
  Forall (λ check, check (agent_at "missing") bare_world = (Ok VNone, bare_world))
         checks ∧
  generate_report (agent_at "missing") bare_world = (Ok VNone, bare_world) ∧
  (¬ ∃ check, check ∈ checks ∧
      returns_finding (λ f, status f = FAIL ∧ descriptive f)
        (fst (check (agent_at "missing") bare_world))) ∧
  ¬ returns_report (λ _, True)
      (fst (generate_report (agent_at "missing") bare_world)).
Proof.
  assert (Hchecks : ∀ check, check ∈ checks → check ∈ operations).
  { intros check Hin. unfold operations. apply elem_of_app. by left. }
  split; [apply root_of_agent_at |].
  split; [by vm_compute |]. split; [by vm_compute |].
  split.
  { apply Forall_forall. intros check Hin. apply operation_inert. auto. }
  split; [apply def_pass |].
  split; [| apply none_is_no_report].
  intros (check & Hin & Hret).
  rewrite operation_inert in Hret by auto.
  by apply none_is_no_finding in Hret.
Qed.

(** C3, on a repository with a [.gitignore] and on one without:
    [scan_gitignore] returns [None] either way, neither a PASS Finding
    where the file is present nor a WARN Finding where it is absent. *)
Theorem scan_gitignore_reports_no_status :
  has_gitignore busy_repo "repo" = true ∧
  has_gitignore fresh_repo "repo" = false ∧
  fst (scan_gitignore (agent_at "repo") busy_repo) = Ok VNone ∧
  fst (scan_gitignore (agent_at "repo") fresh_repo) = Ok VNone ∧
  ¬ returns_finding (λ f, status f = PASS)
      (fst (scan_gitignore (agent_at "repo") busy_repo)) ∧
  ¬ returns_finding (λ f, status f = WARN)
      (fst (scan_gitignore (agent_at "repo") fresh_repo)).
Proof.
  split; [by vm_compute |]. split; [by vm_compute |].
  split; [reflexivity |]. split; [reflexivity |].
  split; apply none_is_no_finding.
Qed.

(** C4, at a repository without [.gitignore]: [scan_gitignore] returns
    [None], no Finding with [auto_fixed] set, and afterwards there is still
    no [.gitignore]. *)
Theorem scan_gitignore_generates_nothing :
  has_gitignore fresh_repo "repo" = false ∧
  scan_gitignore (agent_at "repo") fresh_repo = (Ok VNone, fresh_repo) ∧
  has_gitignore (snd (scan_gitignore (agent_at "repo") fresh_repo)) "repo" = false ∧
  ¬ returns_finding (λ f, auto_fixed f = true)
      (fst (scan_gitignore (agent_at "repo") fresh_repo)).
Proof.
  split; [by vm_compute |]. split; [apply def_pass |].
  split; [by vm_compute | apply none_is_no_finding].
Qed.

(** C5, at a repository with a tracked file of 15 MB and the 10 MB
    threshold: [scan_large_files] returns [None], not a FAIL Finding. *)
Theorem scan_large_files_overlooks_large_file :
  tracked_above (10 * MB) busy_repo "repo" ∧
  fst (scan_large_files (agent_at "repo") busy_repo) = Ok VNone ∧
  ¬ returns_finding (λ f, status f = FAIL)
      (fst (scan_large_files (agent_at "repo") busy_repo)).
Proof.
  split; [| split; [reflexivity | apply none_is_no_finding]].
  exists "repo/assets/video.bin", (mkFile (15 * MB) true true).
  split; [by vm_compute |]. split; [by vm_compute |].
  split; [reflexivity | by vm_compute].
Qed.

(** C6, on a repository without commits: [scan_commit_hygiene] returns
    [None]; it does not raise, but it returns no FAIL Finding with a
    message. *)
Theorem no_history_yields_no_finding :
  root_of (agent_at "repo") = Some "repo" ∧
  is_repository fresh_repo "repo" = true ∧
  commits_of fresh_repo "repo" = [] ∧
  scan_commit_hygiene (agent_at "repo") fresh_repo = (Ok VNone, fresh_repo) ∧
  ¬ returns_finding (λ f, status f = FAIL ∧ descriptive f)
      (fst (scan_commit_hygiene (agent_at "repo") fresh_repo)).
Proof.
  split; [apply root_of_agent_at |].
  split; [by vm_compute |]. split; [by vm_compute |].
  split; [apply def_pass | apply none_is_no_finding].
Qed.

(** C7: two runs of the full scan on a repository whose files and history
    are the same yield the same six results, in the same order. *)
Theorem rescan_yields_identical_results (repo_path : value) (w w' : world) :
  files w = files w' →
  history w = history w' →
  fst (example_usage repo_path w) = fst (example_usage repo_path w').
Proof. intros _ _. by rewrite !example_usage_spec. Qed.

Lemma rescan_yields_identical_results_witness :
  files busy_repo = files busy_repo_later ∧
  history busy_repo = history busy_repo_later ∧
  fst (example_usage (VStr "repo") busy_repo) =
  fst (example_usage (VStr "repo") busy_repo_later).
Proof.
  split; [reflexivity |]. split; [reflexivity |].
  apply (rescan_yields_identical_results (VStr "repo") busy_repo busy_repo_later);
    reflexivity.
Defined.

(** The second of two scans in a row starts from the world the first one
    left, which is the world the first one started from. *)
Lemma rescan_in_sequence repo_path w :
  snd (example_usage repo_path w) = w ∧
  fst (example_usage repo_path (snd (example_usage repo_path w))) =
  fst (example_usage repo_path w).
Proof. by rewrite !example_usage_spec. Qed.

(** C8: no operation, and no scan as a whole, modifies the file system:
    the files after are the files before and nothing is added to the paths
    written.  So no file other than a [.gitignore] or a CI workflow is ever
    created, and with auto-generation off every check only reads. *)
Theorem scan_leaves_file_system_unchanged (self : object) (repo_path : value) (w : world) :
  Forall (λ op, files (snd (op self w)) = files w ∧
                writes (trace (snd (op self w))) = writes (trace w))
         operations ∧
  files (snd (example_usage repo_path w)) = files w ∧
  writes (trace (snd (example_usage repo_path w))) = writes (trace w).
Proof.
  split; [| by rewrite example_usage_spec].
  apply Forall_forall. intros op Hop. by rewrite operation_inert.
Qed.

(** C9 fails as stated: a root path that does not exist is accepted, the
    invocation does not fail. *)
Lemma missing_root_is_accepted :
  ¬ (raised (fst (example_usage (VStr "missing") bare_world)) = true ↔
     exists_readable bare_world (VStr "missing") = false).
Proof. intros [_ Hfail]. discriminate Hfail. reflexivity. Qed.

(** C9, amended: the top-level invocation never fails, whatever the root
    path, existing and readable or not: neither the constructor nor the
    scan that follows it raises. *)
Theorem top_level_never_fails (repo_path : value) (w : world) :
  raised (fst (new repo_path w)) = false ∧
  raised (fst (example_usage repo_path w)) = false.
Proof. split; reflexivity. Qed.

(** ** Further properties of the class *)

(** X1: [__init__] assigns [repo_path] and nothing else: every other
    attribute the instance already has, or lacks, is as before. *)
Theorem init_keeps_other_attributes
    (self : object) (repo_path : value) (w : world) (name : string) :
  name ≠ "repo_path" →
  ∃ self', __init__ self repo_path w = (Ok self', w) ∧
           self' !! name = self !! name.
Proof.
  intros Hname. eexists. split; [reflexivity |].
  by apply lookup_insert_ne.
Qed.

Lemma init_keeps_other_attributes_witness :
  "threshold" ≠ "repo_path" ∧
  ∃ self', __init__ {["threshold" := VInt 10]} (VStr "repo") bare_world
             = (Ok self', bare_world) ∧
           self' !! "threshold" = ({["threshold" := VInt 10]} : object) !! "threshold".
Proof.
  split; [discriminate |].
  apply (init_keeps_other_attributes
           {["threshold" := VInt 10]} (VStr "repo") bare_world "threshold").
  discriminate.
Defined.

(** X2: initialising an instance a second time replaces the path: after
    [__init__] with one path and then with another, the instance is the one
    a single [__init__] with the second path gives. *)
Theorem init_twice_keeps_last_path (self : object) (p q : value) (w : world) :
  (self1 ← __init__ self p; __init__ self1 q) w = __init__ self q w.
Proof.
  unfold __init__, setattr, mbind, M_bind, mret, M_ret.
  by rewrite insert_insert_eq.
Qed.

(** X3: a freshly constructed agent has [repo_path] as its only
    attribute: it carries no threshold, no switch and no other
    configuration. *)
Theorem new_agent_has_only_repo_path (repo_path : value) (w : world) :
  ∃ agent, new repo_path w = (Ok agent, w) ∧
           dom agent = {["repo_path"]}.
Proof.
  eexists. split; [apply new_spec |]. apply dom_singleton_L.
Qed.

(** X4: the public methods may be called in any order and any number of
    times: every call of the sequence returns [None], none raises, and the
    world at the end is the world at the start. *)
Theorem any_call_sequence_is_inert
    (ops : list (object → M value)) (self : object) (w : world) :
  Forall (λ op, op ∈ operations) ops →
  mapM (λ op, op self) ops w = (Ok (replicate (length ops) VNone), w).
Proof.
  induction 1 as [| op ops Hop _ IH]; [reflexivity |].
  cbn [mapM length replicate]. unfold mbind, M_bind at 1.
  rewrite (operation_inert op self w Hop).
  unfold M_bind at 1. fold (mapM (M := M) (λ op0 : object → M value, op0 self) ops).
  by rewrite IH.
Qed.

Lemma any_call_sequence_is_inert_witness :
  Forall (λ op, op ∈ operations)
         [generate_report; scan_large_files; scan_gitignore; generate_report] ∧
  mapM (λ op, op (agent_at "repo"))
       [generate_report; scan_large_files; scan_gitignore; generate_report]
       busy_repo
  = (Ok (replicate 4 VNone), busy_repo).
Proof.
  assert (Hops : Forall (λ op, op ∈ operations)
            [generate_report; scan_large_files; scan_gitignore; generate_report]).
  { unfold operations, checks. repeat constructor. }
  split; [exact Hops |].
  exact (any_call_sequence_is_inert _ (agent_at "repo") busy_repo Hops).
Defined.
